(** * mcp_server_example.py: the example server's tool dispatch

    A shallow embedding of [src/mcp_server_example.py]: the static [TOOLS]
    table, [MCPServer.handle_tool_call] and the tool-call loop of
    [MCPServer.handle_session], followed by the properties the
    specification states about them.

    Python values are embedded as the type [value]; awaited library calls
    ([send_notification], [asyncio.sleep], [return_success],
    [return_error], [set_tools], [initialize]) are recorded, in order, as
    events of a trace carried by an explicit world state; exceptions are
    the [Raise] outcome of a computation.

    The [mcp] session library and the event loop are not part of the
    repository: their calls are taken to complete normally and to leave
    the objects passed to them alone, and cancellation of a suspended
    coroutine is not modelled. *)

From Stdlib Require Import ZArith String Ascii List Floats.
From stdpp Require Import gmap strings list fin_maps pretty.

#[local] Set Warnings "-register-all".
#[local] Open Scope Z_scope.

(** ** Python values *)

(** The values a JSON-decoded parameter dictionary can hold.  [int] is
    unbounded, [float] is an IEEE-754 binary64, a dictionary literal keeps
    the order its keys are written in. *)
Inductive value : Type :=
| VNone
| VBool (b : bool)
| VInt (z : Z)
| VFloat (f : float)
| VStr (s : string)
| VList (l : list value)
| VDict (d : list (string * value)).

(** [type(v).__name__] *)
Definition type_name (v : value) : string :=
  match v with
  | VNone => "NoneType"
  | VBool _ => "bool"
  | VInt _ => "int"
  | VFloat _ => "float"
  | VStr _ => "str"
  | VList _ => "list"
  | VDict _ => "dict"
  end.

(** ** Exceptions and outcomes *)

Inductive exn : Type :=
| ValueError (msg : string)
| TypeError (msg : string)
| OverflowError (msg : string).

(** [str(e)] for an exception built from one message argument. *)
Definition str_exn (e : exn) : string :=
  match e with
  | ValueError msg | TypeError msg | OverflowError msg => msg
  end.

Inductive outcome (A : Type) : Type :=
| Return (a : A)
| Raise (e : exn).
Arguments Return {A} a.
Arguments Raise {A} e.

(** ** The interpreter's arithmetic *)

(** The double-quote character (code 34), for the interpreter's messages. *)
Definition dquote : string := String (ascii_of_nat 34) EmptyString.

(** [bool] is a subclass of [int]: [True] counts as 1 and [False] as 0. *)
Definition as_int (v : value) : option Z :=
  match v with
  | VInt z => Some z
  | VBool b => Some (Z.b2z b)
  | _ => None
  end.

(** The binary64 nearest to an integer, ties to even; integers beyond the
    largest finite float round to an infinity. *)
Definition Z_to_float (z : Z) : float :=
  SF2Prim (binary_normalize prec emax z 0 false).

(** Conversion of an [int] operand of a mixed [int]/[float] operation: it
    raises where the nearest float is not finite. *)
Definition int_to_float (z : Z) : outcome float :=
  let f := Z_to_float z in
  if PrimFloat.is_infinity f
  then Raise (OverflowError "int too large to convert to float")
  else Return f.

Definition unsupported_add (a b : value) : exn :=
  TypeError ("unsupported operand type(s) for +: '" +:+ type_name a
             +:+ "' and '" +:+ type_name b +:+ "'").

Definition cannot_concatenate (a b : value) : exn :=
  TypeError ("can only concatenate " +:+ type_name a +:+ " (not " +:+ dquote
             +:+ type_name b +:+ dquote +:+ ") to " +:+ type_name a).

(** The operator [a + b] on the embedded values. *)
Definition py_add (a b : value) : outcome value :=
  match a, b with
  | VStr s, VStr t => Return (VStr (s +:+ t))
  | VStr _, _ => Raise (cannot_concatenate a b)
  | VList l, VList k => Return (VList (l ++ k))
  | VList _, _ => Raise (cannot_concatenate a b)
  | VFloat f, VFloat g => Return (VFloat (f + g)%float)
  | VFloat f, _ =>
      match as_int b with
      | Some z =>
          match int_to_float z with
          | Return g => Return (VFloat (f + g)%float)
          | Raise e => Raise e
          end
      | None => Raise (unsupported_add a b)
      end
  | _, _ =>
      match as_int a with
      | Some y =>
          match b with
          | VFloat g =>
              match int_to_float y with
              | Return f => Return (VFloat (f + g)%float)
              | Raise e => Raise e
              end
          | _ =>
              match as_int b with
              | Some z => Return (VInt (y + z))
              | None => Raise (unsupported_add a b)
              end
          end
      | None => Raise (unsupported_add a b)
      end
  end.

(** [range(start, stop)] over integers, as the list it iterates through. *)
Definition range (start stop : Z) : list Z :=
  map (fun k : nat => start + Z.of_nat k) (seq 0 (Z.to_nat (stop - start))).

(** [range(n)] for an arbitrary value [n]: only [int] (and [bool]) can be
    interpreted as an integer. *)
Definition range_of (n : value) : outcome (list Z) :=
  match as_int n with
  | Some z => Return (range 0 z)
  | None =>
      Raise (TypeError ("'" +:+ type_name n
                        +:+ "' object cannot be interpreted as an integer"))
  end.

(** [d.get(key, default)] on a dictionary with string keys. *)
Definition get (d : gmap string value) (key : string) (dflt : value) : value :=
  default dflt (d !! key).

(** ** Tool descriptors (the records of the [mcp] library) *)

Record ToolParameterDefinition : Type := {
  tp_name : string;
  tp_type : string;
  tp_description : string;
  tp_required : bool
}.

Record ToolResultDefinition : Type := {
  tr_type : string;
  tr_description : string
}.

Record ToolDefinition : Type := {
  td_name : string;
  td_description : string;
  td_parameters : list ToolParameterDefinition;
  td_result : ToolResultDefinition
}.

(** The module-level list [TOOLS], as written at lines 22-95. *)
Definition TOOLS : list ToolDefinition := [
  {| td_name := "echo";
     td_description := "Echoes back the message";
     td_parameters := [
       {| tp_name := "message"; tp_type := "string";
          tp_description := "The message to echo"; tp_required := true |} ];
     td_result :=
       {| tr_type := "string"; tr_description := "The echoed message" |} |};
  {| td_name := "add";
     td_description := "Adds two numbers";
     td_parameters := [
       {| tp_name := "a"; tp_type := "number";
          tp_description := "First number"; tp_required := true |};
       {| tp_name := "b"; tp_type := "number";
          tp_description := "Second number"; tp_required := true |} ];
     td_result :=
       {| tr_type := "number"; tr_description := "The sum of a and b" |} |};
  {| td_name := "mcp_create_text_to_image_task";
     td_description :=
       "Creates a text to image generation task and sends progress notifications";
     td_parameters := [
       {| tp_name := "prompt"; tp_type := "string";
          tp_description := "The prompt for image generation";
          tp_required := true |};
       {| tp_name := "width"; tp_type := "number";
          tp_description := "Width of the image"; tp_required := true |};
       {| tp_name := "height"; tp_type := "number";
          tp_description := "Height of the image"; tp_required := true |};
       {| tp_name := "num_images"; tp_type := "number";
          tp_description := "Number of images to generate";
          tp_required := true |} ];
     td_result :=
       {| tr_type := "object";
          tr_description := "The result of the image generation task" |} |}
].

(** ** The world: module globals, the server object, the trace *)

(** A tool-call object handed out by [session.tool_calls()]: the two
    attributes the loop reads, and whether [hasattr(tool_call,
    "send_notification")] holds.  Such an object is an ordinary instance,
    hence true in a boolean context. *)
Record ToolCall : Type := {
  tc_name : string;
  tc_parameters : gmap string value;
  tc_has_send_notification : bool
}.

(** The awaited calls into the library and the event loop, in the order
    they are made. *)
Inductive event : Type :=
| SetTools (tools : list ToolDefinition)
| Initialize
| SendNotification (tool_call : ToolCall) (notification : value)
| Sleep (seconds : Z)
| ReturnSuccess (tool_call : ToolCall) (result : value)
| ReturnError (tool_call : ToolCall) (message : string).

(** [w_TOOLS] is the list the global name [TOOLS] is bound to, [w_server]
    the attribute dictionary of the [MCPServer] instance ([self]), and
    [w_trace] the events so far, oldest first. *)
Record world : Type := {
  w_TOOLS : list ToolDefinition;
  w_server : gmap string value;
  w_trace : list event
}.

(** The world once the module is loaded and [MCPServer()] is built: the
    class defines no attribute. *)
Definition module_loaded : world :=
  {| w_TOOLS := TOOLS; w_server := ∅; w_trace := [] |}.

(** ** Computations: world passing with exceptions *)

Definition M (A : Type) : Type := world -> outcome A * world.

Definition ret {A} (a : A) : M A := fun w => (Return a, w).

Definition bind {A B} (m : M A) (k : A -> M B) : M B :=
  fun w =>
    match m w with
    | (Return a, w') => k a w'
    | (Raise e, w') => (Raise e, w')
    end.

Definition raise {A} (e : exn) : M A := fun w => (Raise e, w).

(** A pure evaluation that may raise. *)
Definition lift {A} (o : outcome A) : M A := fun w => (o, w).

(** Read the global name [TOOLS]. *)
Definition read_TOOLS : M (list ToolDefinition) :=
  fun w => (Return (w_TOOLS w), w).

(** The world after the events [es] took place: nothing but the trace
    has changed. *)
Definition log (w : world) (es : list event) : world :=
  {| w_TOOLS := w_TOOLS w; w_server := w_server w;
     w_trace := w_trace w ++ es |}.

(** Perform one awaited call: it is appended to the trace. *)
Definition emit (e : event) : M unit := fun w => (Return tt, log w [e]).

(** [try: body except Exception as e: handler(e)] *)
Definition try_except {A} (body : M A) (handler : exn -> M A) : M A :=
  fun w =>
    match body w with
    | (Return a, w') => (Return a, w')
    | (Raise e, w') => handler e w'
    end.

(** [for x in xs: body(x)] *)
Fixpoint for_each {A} (xs : list A) (body : A -> M unit) : M unit :=
  match xs with
  | [] => ret tt
  | x :: rest => bind (body x) (fun _ => for_each rest body)
  end.

Declare Scope py_scope.
Delimit Scope py_scope with py.
Notation "x <- m ;; k" := (bind m (fun x => k))
  (at level 100, m at next level, right associativity) : py_scope.
Notation "m ;; k" := (bind m (fun _ => k))
  (at level 100, right associativity) : py_scope.

(** ** The server *)

Section Server.

(** [repr] of a float, a list or a dictionary is the interpreter's
    business; the server only ever interpolates it into a message. *)
Variable py_repr : value -> string.

(** [str(v)], which is what an f-string field [{v}] expands to. *)
Definition py_str (v : value) : string :=
  match v with
  | VStr s => s
  | VInt z => pretty z
  | VBool true => "True"
  | VBool false => "False"
  | VNone => "None"
  | VFloat _ | VList _ | VDict _ => py_repr v
  end.

(** [MCPServer.handle_tool_call] (lines 103-156). *)
Definition handle_tool_call
    (tool_name : string) (params : gmap string value)
    (tool_call : option ToolCall) : M value :=
  (if String.eqb tool_name "echo" then
     ret (get params "message" (VStr ""))
   else if String.eqb tool_name "add" then
     lift (py_add (get params "a" (VInt 0)) (get params "b" (VInt 0)))
   else if String.eqb tool_name "mcp_create_text_to_image_task" then
     let prompt := get params "prompt" (VStr "") in
     let width := get params "width" (VInt 512) in
     let height := get params "height" (VInt 512) in
     let num_images := get params "num_images" (VInt 1) in
     match tool_call with
     | Some tc =>
         if tc_has_send_notification tc then
           emit (SendNotification tc (VDict [
             ("type", VStr "status");
             ("status", VStr "starting");
             ("message",
              VStr ("Starting image generation for: " +:+ py_str prompt))])) ;;
           for_each (range 1 5) (fun i =>
             emit (Sleep 1) ;;
             let progress := i * 25 in
             emit (SendNotification tc (VDict [
               ("type", VStr "progress");
               ("progress", VInt progress);
               ("message",
                VStr ("Generating image: " +:+ py_str (VInt progress)
                      +:+ "% complete"))]))) ;;
           emit (SendNotification tc (VDict [
             ("type", VStr "status");
             ("status", VStr "completed");
             ("message", VStr "Image generation complete!")]))
         else ret tt
     | None => ret tt
     end ;;
     indices <- lift (range_of num_images) ;;
     ret (VDict [
       ("images",
        VList (map (fun i =>
          VDict [
            ("url", VStr ("https://example.com/images/generated_"
                          +:+ py_str (VInt i) +:+ ".png"));
            ("width", width);
            ("height", height)]) indices));
       ("prompt", prompt)])
   else
     raise (ValueError ("Unknown tool: " +:+ tool_name)))%py.

(** The body of the [async for] loop of [handle_session] (lines
    173-179), for one tool call. *)
Definition handle_one (tool_call : ToolCall) : M unit :=
  try_except
    (result <- handle_tool_call (tc_name tool_call)
                 (tc_parameters tool_call) (Some tool_call) ;;
     emit (ReturnSuccess tool_call result))%py
    (fun e => emit (ReturnError tool_call (str_exn e))).

(** [MCPServer.handle_session] (lines 158-179): [tool_calls] is the
    sequence [session.tool_calls()] yields. *)
Definition handle_session (tool_calls : list ToolCall) : M unit :=
  (tools <- read_TOOLS ;;
   emit (SetTools tools) ;;
   emit Initialize ;;
   for_each tool_calls handle_one)%py.

End Server.

(** ** Vocabulary of the specification *)


(** What a descriptor says, descriptions left out: its name, the name,
    type and required flag of each parameter, and the result type. *)
Definition signature (td : ToolDefinition)
  : string * list (string * string * bool) * string :=
  (td_name td,
   map (fun p => (tp_name p, tp_type p, tp_required p)) (td_parameters td),
   tr_type (td_result td)).

(** A JSON number: an [int] or a [float]. *)
Definition is_number (v : value) : Prop :=
  (exists z, v = VInt z) \/ (exists f, v = VFloat f).


(** The two shapes of notification the image task sends. *)
Definition status_notification (status message : string) : value :=
  VDict [("type", VStr "status"); ("status", VStr status);
         ("message", VStr message)].

Definition progress_notification (progress : Z) (message : string) : value :=
  VDict [("type", VStr "progress"); ("progress", VInt progress);
         ("message", VStr message)].

(** The calls the image task makes on the way to its result, written
    out: [prompt_text] is the prompt as the first message shows it. *)
Definition image_task_events (tool_call : ToolCall) (prompt_text : string)
  : list event :=
  [ SendNotification tool_call
      (status_notification "starting"
         ("Starting image generation for: " +:+ prompt_text));
    Sleep 1;
    SendNotification tool_call
      (progress_notification 25 "Generating image: 25% complete");
    Sleep 1;
    SendNotification tool_call
      (progress_notification 50 "Generating image: 50% complete");
    Sleep 1;
    SendNotification tool_call
      (progress_notification 75 "Generating image: 75% complete");
    Sleep 1;
    SendNotification tool_call
      (progress_notification 100 "Generating image: 100% complete");
    SendNotification tool_call
      (status_notification "completed" "Image generation complete!") ].

(** The replies ([return_success] and [return_error] calls), in order. *)
Definition is_reply (e : event) : bool :=
  match e with
  | ReturnSuccess _ _ | ReturnError _ _ => true
  | _ => false
  end.

Definition replies (es : list event) : list event := List.filter is_reply es.

(** The reply the loop owes a tool call whose handler ended in [o]. *)
Definition reply_for (tool_call : ToolCall) (o : outcome value) : event :=
  match o with
  | Return result => ReturnSuccess tool_call result
  | Raise e => ReturnError tool_call (str_exn e)
  end.

(** A value of the declared parameter type, integers standing for
    numbers. *)
Definition conforms (ty : string) (v : value) : Prop :=
  (ty = "string" /\ exists s, v = VStr s) \/
  (ty = "number" /\ exists z, v = VInt z).

(** Every parameter of [td] that is present in [params] has its declared
    type; nothing is asked of the ones left out. *)
Definition well_typed_where_present
    (td : ToolDefinition) (params : gmap string value) : Prop :=
  forall p v,
    In p (td_parameters td) -> params !! tp_name p = Some v ->
    conforms (tp_type p) v.

(** ** Sample calls *)

(** An image-task call whose tool-call object provides
    [send_notification]. *)
Definition sunset_call : ToolCall :=
  {| tc_name := "mcp_create_text_to_image_task";
     tc_parameters := {[ "prompt" := VStr "A beautiful sunset" ]};
     tc_has_send_notification := true |}.

(** Parameters asking for two images of 640 by 480. *)
Definition two_images_params : gmap string value :=
  <[ "num_images" := VInt 2 ]>
    (<[ "width" := VInt 640 ]>
       (<[ "height" := VInt 480 ]> {[ "prompt" := VStr "sun" ]})).

(** The call [main] of [client_example.py] makes (lines 103-111), as it
    reaches the loop on a tool-call object that provides
    [send_notification]. *)
Definition client_call : ToolCall :=
  {| tc_name := "mcp_create_text_to_image_task";
     tc_parameters :=
       <[ "prompt" := VStr "A beautiful sunset over the mountains" ]>
         (<[ "width" := VInt 512 ]>
            (<[ "height" := VInt 512 ]>
               {[ "negitive_prompt" := VStr "tree" ]}));
     tc_has_send_notification := true |}.

(** ** Vocabulary of the further properties *)

(** The parameter names [TOOLS] declares for a tool name, none for a name
    it does not declare. *)
Definition declared_parameters (tool_name : string) : list string :=
  match find (fun td => String.eqb tool_name (td_name td)) TOOLS with
  | Some td => map tp_name (td_parameters td)
  | None => []
  end.

(** Two dictionaries that hold the same thing under each of [keys]. *)
Definition agree_on (keys : list string) (p q : gmap string value) : Prop :=
  forall k, In k keys -> p !! k = q !! k.

(** Whether a call of the handler reaches the notification block: the
    image task, on a tool-call object that provides [send_notification]. *)
Definition notifies (tool_name : string) (tool_call : option ToolCall) : bool :=
  String.eqb tool_name "mcp_create_text_to_image_task" &&
  match tool_call with
  | Some tc => tc_has_send_notification tc
  | None => false
  end.


(** How [+] sees an operand. *)
Inductive operand_kind : Type := KNumber | KStr | KList | KOther.

Definition kind_of (v : value) : operand_kind :=
  match v with
  | VBool _ | VInt _ | VFloat _ => KNumber
  | VStr _ => KStr
  | VList _ => KList
  | VNone | VDict _ => KOther
  end.

(** The url the image task gives image [i]. *)
Definition image_url (i : Z) : string :=
  "https://example.com/images/generated_" +:+ pretty i +:+ ".png".

(** One entry of the "images" list. *)
Definition image_entry (url : string) (width height : value) : value :=
  VDict [("url", VStr url); ("width", width); ("height", height)].

(** What one iteration of the loop adds to the trace: the notification
    sequence where the call reaches it, then the reply. *)
Definition call_block (prompt_text : string) (tool_call : ToolCall)
    (o : outcome value) : list event :=
  (if notifies (tc_name tool_call) (Some tool_call)
   then image_task_events tool_call prompt_text
   else [])
  ++ [reply_for tool_call o].

(** The tool call an event is made on, if any. *)
Definition event_call (e : event) : option ToolCall :=
  match e with
  | SendNotification tc _ | ReturnSuccess tc _ | ReturnError tc _ => Some tc
  | SetTools _ | Initialize | Sleep _ => None
  end.

(** A computation whose outcome and emitted events do not depend on the
    world it starts in, which changes nothing but the trace, and whose
    events all satisfy [P]. *)
Definition emits (P : event -> Prop) {A} (m : M A) : Prop :=
  exists (o : outcome A) (es : list event),
    Forall P es /\ forall w, m w = (o, log w es).

Definition framed {A} (m : M A) : Prop := emits (fun _ => True) m.

(** Computations that make no [return_success] or [return_error] call. *)
Definition no_reply (e : event) : Prop := is_reply e = false.

(** ** Worlds and the computation combinators *)

Lemma log_nil w : log w [] = w.
Proof. destruct w; unfold log; simpl. by rewrite app_nil_r. Qed.

Lemma log_log w es1 es2 : log (log w es1) es2 = log w (es1 ++ es2).
Proof. unfold log; simpl. by rewrite app_assoc. Qed.

Lemma log_TOOLS w es : w_TOOLS (log w es) = w_TOOLS w.
Proof. reflexivity. Qed.

Lemma log_server w es : w_server (log w es) = w_server w.
Proof. reflexivity. Qed.

Lemma log_trace w es : w_trace (log w es) = w_trace w ++ es.
Proof. reflexivity. Qed.

Section Emits.

Context (P : event -> Prop).

Lemma emits_ret {A} (a : A) : emits P (ret a).
Proof.
  exists (Return a), []. split; [constructor|].
  intros w. unfold ret. by rewrite log_nil.
Qed.

Lemma emits_raise {A} (e : exn) : emits P (@raise A e).
Proof.
  exists (Raise e), []. split; [constructor|].
  intros w. unfold raise. by rewrite log_nil.
Qed.

Lemma emits_lift {A} (o : outcome A) : emits P (lift o).
Proof.
  exists o, []. split; [constructor|].
  intros w. unfold lift. by rewrite log_nil.
Qed.

Lemma emits_emit e : P e -> emits P (emit e).
Proof. intros He. exists (Return tt), [e]. split; [by repeat constructor|done]. Qed.

Lemma emits_bind {A B} (m : M A) (k : A -> M B) :
  emits P m -> (forall a, emits P (k a)) -> emits P (bind m k).
Proof.
  intros (o & es & HP & Hm) Hk. destruct o as [a|e].
  - destruct (Hk a) as (o' & es' & HP' & Hka).
    exists o', (es ++ es'). split; [by apply Forall_app|].
    intros w. unfold bind. by rewrite Hm, Hka, log_log.
  - exists (Raise e), es. split; [done|].
    intros w. unfold bind. by rewrite Hm.
Qed.

Lemma emits_try_except {A} (body : M A) (handler : exn -> M A) :
  emits P body -> (forall e, emits P (handler e)) ->
  emits P (try_except body handler).
Proof.
  intros (o & es & HP & Hm) Hh. destruct o as [a|e].
  - exists (Return a), es. split; [done|].
    intros w. unfold try_except. by rewrite Hm.
  - destruct (Hh e) as (o' & es' & HP' & He).
    exists o', (es ++ es'). split; [by apply Forall_app|].
    intros w. unfold try_except. by rewrite Hm, He, log_log.
Qed.

Lemma emits_for_each {A} (xs : list A) (body : A -> M unit) :
  (forall x, emits P (body x)) -> emits P (for_each xs body).
Proof.
  intros Hbody. induction xs as [|x rest IH]; simpl.
  - apply emits_ret.
  - apply emits_bind; auto.
Qed.

End Emits.

Lemma emits_weaken (P Q : event -> Prop) {A} (m : M A) :
  (forall e, P e -> Q e) -> emits P m -> emits Q m.
Proof.
  intros HPQ (o & es & HP & Hm). exists o, es. split; [|done].
  eapply Forall_impl; eauto.
Qed.

Lemma no_reply_replies es : Forall no_reply es -> replies es = [].
Proof.
  induction 1 as [|e es He _ IH]; [done|].
  unfold replies in *; simpl. unfold no_reply in He. by rewrite He.
Qed.

Lemma replies_app es1 es2 : replies (es1 ++ es2) = replies es1 ++ replies es2.
Proof. unfold replies. apply List.filter_app. Qed.

Create HintDb emits.
#[local] Hint Resolve emits_ret emits_raise emits_lift emits_emit
  emits_bind emits_try_except emits_for_each : emits.
#[local] Hint Extern 1 (no_reply _) => reflexivity : emits.

(** The handler itself never replies: that is left to the loop. *)
Lemma handle_tool_call_emits py_repr tool_name params tool_call :
  emits no_reply (handle_tool_call py_repr tool_name params tool_call).
Proof.
  unfold handle_tool_call.
  repeat case_match; auto 10 with emits.
Qed.

Lemma handle_tool_call_framed py_repr tool_name params tool_call :
  framed (handle_tool_call py_repr tool_name params tool_call).
Proof.
  eapply emits_weaken; [|apply handle_tool_call_emits]. done.
Qed.

(** ** The interpreter's arithmetic on examples *)

(** Integers are rounded to the nearest float, ties to even. *)
Example Z_to_float_ties_to_even :
  Z_to_float (2 ^ 53 + 1) = 9007199254740992%float /\
  Z_to_float (2 ^ 53 + 3) = 9007199254740996%float.
Proof. split; vm_compute; reflexivity. Qed.

(** The largest integer that still converts, and the first that does not. *)
Example int_to_float_threshold :
  int_to_float (2 ^ 1024 - 2 ^ 970 - 1) = Return 0x1.fffffffffffffp+1023%float /\
  int_to_float (2 ^ 1024 - 2 ^ 970)
  = Raise (OverflowError "int too large to convert to float").
Proof. split; vm_compute; reflexivity. Qed.

Example py_add_examples :
  py_add (VInt 2) (VInt 3) = Return (VInt 5) /\
  py_add (VBool true) (VFloat 1.5) = Return (VFloat 2.5) /\
  py_add (VStr "ab") (VStr "cd") = Return (VStr "abcd") /\
  py_add (VInt 0) (VStr "x")
  = Raise (TypeError "unsupported operand type(s) for +: 'int' and 'str'") /\
  py_add (VList []) (VNone)
  = Raise (TypeError ("can only concatenate list (not " +:+ dquote
                      +:+ "NoneType" +:+ dquote +:+ ") to list")).
Proof. repeat split; vm_compute; reflexivity. Qed.

Example range_of_examples :
  range_of (VInt 3) = Return [0; 1; 2] /\
  range_of (VInt (-2)) = Return [] /\
  range_of (VBool true) = Return [0] /\
  range_of (VFloat 2)
  = Raise (TypeError "'float' object cannot be interpreted as an integer").
Proof. repeat split. Qed.

(** ** The interpreter's operations never raise [ValueError] *)

Lemma int_to_float_cases z :
  (PrimFloat.is_infinity (Z_to_float z) = false /\
   int_to_float z = Return (Z_to_float z)) \/
  (PrimFloat.is_infinity (Z_to_float z) = true /\
   int_to_float z = Raise (OverflowError "int too large to convert to float")).
Proof.
  unfold int_to_float.
  destruct (PrimFloat.is_infinity (Z_to_float z)); [right | left]; done.
Qed.



(** ** The demo tools *)

(** C1. Where [params] maps ["message"] to a string [m], the echo tool
    returns exactly [m], emits nothing and leaves the world as it was. *)
Theorem echo_returns_message py_repr params m tool_call w :
  params !! "message" = Some (VStr m) ->
  handle_tool_call py_repr "echo" params tool_call w = (Return (VStr m), w).
Proof.
  intros Hm. unfold handle_tool_call; simpl. unfold get. by rewrite Hm.
Qed.

(** Echo of ["hi"] returns ["hi"]. *)
Lemma echo_returns_message_witness :
  handle_tool_call (fun _ => EmptyString) "echo"
    {[ "message" := VStr "hi" ]} None module_loaded
  = (Return (VStr "hi"), module_loaded).
Proof. apply echo_returns_message. reflexivity. Defined.

(** C2, as amended. Where [params] maps ["a"] and ["b"] to numbers, the
    add tool returns their sum: the exact integer sum of two ints, the
    binary64 sum of two floats, and for an int and a float the binary64
    sum once the int is rounded to the nearest float. The last case needs
    that nearest float to be finite; otherwise the call raises
    [OverflowError] and returns nothing. *)
Theorem add_returns_sum py_repr params tool_call w :
  (forall x y,
      params !! "a" = Some (VInt x) -> params !! "b" = Some (VInt y) ->
      handle_tool_call py_repr "add" params tool_call w
      = (Return (VInt (x + y)), w)) /\
  (forall f g,
      params !! "a" = Some (VFloat f) -> params !! "b" = Some (VFloat g) ->
      handle_tool_call py_repr "add" params tool_call w
      = (Return (VFloat (f + g)%float), w)) /\
  (forall x g,
      params !! "a" = Some (VInt x) -> params !! "b" = Some (VFloat g) ->
      handle_tool_call py_repr "add" params tool_call w
      = (if PrimFloat.is_infinity (Z_to_float x)
         then Raise (OverflowError "int too large to convert to float")
         else Return (VFloat (Z_to_float x + g)%float), w)) /\
  (forall f y,
      params !! "a" = Some (VFloat f) -> params !! "b" = Some (VInt y) ->
      handle_tool_call py_repr "add" params tool_call w
      = (if PrimFloat.is_infinity (Z_to_float y)
         then Raise (OverflowError "int too large to convert to float")
         else Return (VFloat (f + Z_to_float y)%float), w)).
Proof.
  repeat split; intros ? ? Ha Hb;
    unfold handle_tool_call; simpl; unfold get, lift; rewrite Ha, Hb; simpl;
    try reflexivity;
    unfold int_to_float;
    match goal with
    | |- context [PrimFloat.is_infinity ?f] =>
        destruct (PrimFloat.is_infinity f); reflexivity
    end.
Qed.

(** Add of 2 and 3 returns 5. *)
Lemma add_returns_sum_witness :
  handle_tool_call (fun _ => EmptyString) "add"
    (<[ "a" := VInt 2 ]> {[ "b" := VInt 3 ]}) None module_loaded
  = (Return (VInt 5), module_loaded).
Proof.
  apply (proj1 (add_returns_sum (fun _ => EmptyString)
                  (<[ "a" := VInt 2 ]> {[ "b" := VInt 3 ]}) None module_loaded)
           2 3); reflexivity.
Defined.

(** C2, as stated, fails: with the int [10^400] for ["a"] and the float
    [0.5] for ["b"], both of them numbers, the add tool raises
    [OverflowError] instead of returning a sum. *)
Lemma add_of_numbers_may_raise :
  is_number (VInt (10 ^ 400)) /\ is_number (VFloat 0.5) /\
  fst (handle_tool_call (fun _ => EmptyString) "add"
         (<[ "a" := VInt (10 ^ 400) ]> {[ "b" := VFloat 0.5 ]})
         None module_loaded)
  = Raise (OverflowError "int too large to convert to float").
Proof.
  split; [left; eauto | split; [right; eauto |]].
  vm_compute. reflexivity.
Qed.



(** ** The tool-call loop *)

Lemma handle_one_run py_repr tool_call :
  exists o es,
    replies es = [] /\
    forall w,
      handle_tool_call py_repr (tc_name tool_call) (tc_parameters tool_call)
        (Some tool_call) w = (o, log w es) /\
      handle_one py_repr tool_call w
      = (Return tt, log w (es ++ [reply_for tool_call o])).
Proof.
  destruct (handle_tool_call_emits py_repr (tc_name tool_call)
              (tc_parameters tool_call) (Some tool_call))
    as (o & es & Hquiet & Hrun).
  exists o, es. split; [by apply no_reply_replies|].
  intros w. split; [apply Hrun|].
  unfold handle_one, try_except, bind. rewrite Hrun.
  destruct o as [result|e]; simpl; unfold emit; by rewrite log_log.
Qed.

Lemma for_each_handle_one py_repr tool_calls w0 :
  exists es,
    (forall w,
        for_each tool_calls (handle_one py_repr) w = (Return tt, log w es)) /\
    replies es
    = map (fun tc =>
             reply_for tc
               (fst (handle_tool_call py_repr (tc_name tc) (tc_parameters tc)
                       (Some tc) w0)))
        tool_calls.
Proof.
  induction tool_calls as [|tc rest (es_rest & Hrest & Hreplies)]; simpl.
  - exists []. split; [|done]. intros w. unfold ret. by rewrite log_nil.
  - destruct (handle_one_run py_repr tc) as (o & es & Hquiet & Hone).
    exists ((es ++ [reply_for tc o]) ++ es_rest). split.
    + intros w. unfold bind.
      destruct (Hone w) as [_ ->]. by rewrite Hrest, log_log.
    + destruct (Hone w0) as [-> _]; simpl.
      rewrite !replies_app, Hquiet, Hreplies; simpl.
      by destruct o.
Qed.

Lemma handle_session_run py_repr tool_calls w :
  exists es,
    handle_session py_repr tool_calls w
    = (Return tt, log w ([SetTools (w_TOOLS w); Initialize] ++ es)) /\
    replies es
    = map (fun tc =>
             reply_for tc
               (fst (handle_tool_call py_repr (tc_name tc) (tc_parameters tc)
                       (Some tc) w)))
        tool_calls.
Proof.
  destruct (for_each_handle_one py_repr tool_calls w)
    as (es & Hloop & Hreplies).
  exists es. split; [|done].
  unfold handle_session, bind, read_TOOLS, emit.
  by rewrite Hloop, !log_log.
Qed.

(** C4. In the tool-call loop, a tool call whose handler raises [e] is
    answered by [return_error] with [str(e)] and by no [return_success]; one
    whose handler returns a value is answered by [return_success] with that
    value and by no [return_error]. The reply is the last event of the
    iteration and its only reply, and the loop goes on to the next tool
    call: a session ends normally with exactly one reply per tool call, in
    the order of the calls. *)
Theorem tool_call_loop_replies py_repr :
  (forall tool_call, exists o es,
      replies es = [] /\
      forall w,
        handle_tool_call py_repr (tc_name tool_call)
          (tc_parameters tool_call) (Some tool_call) w = (o, log w es) /\
        handle_one py_repr tool_call w
        = (Return tt,
           log w (es ++ [match o with
                         | Return result => ReturnSuccess tool_call result
                         | Raise e => ReturnError tool_call (str_exn e)
                         end]))) /\
  (forall tool_calls w, exists es,
      handle_session py_repr tool_calls w = (Return tt, log w es) /\
      replies es
      = map (fun tc =>
               match
                 fst (handle_tool_call py_repr (tc_name tc)
                        (tc_parameters tc) (Some tc) w)
               with
               | Return result => ReturnSuccess tc result
               | Raise e => ReturnError tc (str_exn e)
               end)
          tool_calls).
Proof.
  split.
  - intros tool_call. apply handle_one_run.
  - intros tool_calls w.
    destruct (handle_session_run py_repr tool_calls w)
      as (es & Hrun & Hreplies).
    exists ([SetTools (w_TOOLS w); Initialize] ++ es). split; [done|].
    rewrite replies_app. exact Hreplies.
Qed.

(** ** The image task's notifications *)

Lemma image_task_run py_repr params tool_call :
  tc_has_send_notification tool_call = true ->
  exists o,
    forall w,
      handle_tool_call py_repr "mcp_create_text_to_image_task" params
        (Some tool_call) w
      = (o, log w (image_task_events tool_call
                     (py_str py_repr (get params "prompt" (VStr ""))))).
Proof.
  intros Hhas.
  destruct (range_of (get params "num_images" (VInt 1))) as [idx|e] eqn:Hrange;
    eexists; intros w;
    unfold handle_tool_call; simpl; rewrite Hhas;
    unfold bind, emit, lift, ret; simpl; rewrite Hrange, !log_log;
    reflexivity.
Qed.



(** ** The static tool table *)

(** C6. [TOOLS] holds exactly three descriptors, named "echo", "add" and
    "mcp_create_text_to_image_task"; each carries a name, parameters with
    a name, a type and a required flag, and a result type, as listed. The
    list is in place once the module is loaded, and neither the handler
    nor a whole session changes it: the session only passes it, as it is,
    to [set_tools]. *)
Theorem TOOLS_static py_repr :
  length TOOLS = 3%nat /\
  map signature TOOLS
  = [ ("echo", [("message", "string", true)], "string");
      ("add", [("a", "number", true); ("b", "number", true)], "number");
      ("mcp_create_text_to_image_task",
       [("prompt", "string", true); ("width", "number", true);
        ("height", "number", true); ("num_images", "number", true)],
       "object") ]%string /\
  w_TOOLS module_loaded = TOOLS /\
  (forall tool_name params tool_call w,
      w_TOOLS (snd (handle_tool_call py_repr tool_name params tool_call w))
      = w_TOOLS w) /\
  (forall tool_calls w,
      w_TOOLS (snd (handle_session py_repr tool_calls w)) = w_TOOLS w /\
      head (drop (length (w_trace w))
              (w_trace (snd (handle_session py_repr tool_calls w))))
      = Some (SetTools (w_TOOLS w))).
Proof.
  split; [reflexivity|]. split; [reflexivity|]. split; [reflexivity|]. split.
  - intros tool_name params tool_call w.
    destruct (handle_tool_call_framed py_repr tool_name params tool_call)
      as (o & es & _ & Hrun).
    by rewrite Hrun.
  - intros tool_calls w.
    destruct (handle_session_run py_repr tool_calls w) as (es & -> & _).
    split; [reflexivity|].
    simpl. by rewrite drop_app_length.
Qed.

(** ** Determinism and independence *)

(** C7. The outcome of [handle_tool_call] and the events it emits are
    determined by its arguments alone: they are the same from every world,
    whatever the server object, the global table and the earlier trace
    hold, and the call leaves the server object and the table as they
    were, only appending its events to the trace. *)
Theorem handle_tool_call_stateless py_repr tool_name params tool_call :
  exists o es,
    forall w,
      fst (handle_tool_call py_repr tool_name params tool_call w) = o /\
      w_trace (snd (handle_tool_call py_repr tool_name params tool_call w))
      = w_trace w ++ es /\
      w_server (snd (handle_tool_call py_repr tool_name params tool_call w))
      = w_server w /\
      w_TOOLS (snd (handle_tool_call py_repr tool_name params tool_call w))
      = w_TOOLS w.
Proof.
  destruct (handle_tool_call_framed py_repr tool_name params tool_call)
    as (o & es & _ & Hrun).
  exists o, es. intros w. by rewrite Hrun.
Qed.

Lemma image_task_outcome py_repr params tool_call w :
  fst (handle_tool_call py_repr "mcp_create_text_to_image_task" params
         tool_call w)
  = match range_of (get params "num_images" (VInt 1)) with
    | Return indices =>
        Return (VDict [
          ("images",
           VList (map (fun i =>
             VDict [
               ("url", VStr ("https://example.com/images/generated_"
                             +:+ pretty i +:+ ".png"));
               ("width", get params "width" (VInt 512));
               ("height", get params "height" (VInt 512))]) indices));
          ("prompt", get params "prompt" (VStr ""))])
    | Raise e => Raise e
    end.
Proof.
  unfold handle_tool_call; simpl.
  destruct tool_call as [tc|]; [destruct (tc_has_send_notification tc)|];
    unfold bind, emit, lift, ret; simpl;
    by destruct (range_of _).
Qed.


(** ** The image task's result *)




(** ** Missing parameters *)

(** Writing the default of a missing key into the dictionary changes no
    [get]. *)
Lemma get_insert_missing (params : gmap string value) k d k' d' :
  params !! k = None -> (k' = k -> d' = d) ->
  get (<[ k := d ]> params) k' d' = get params k' d'.
Proof.
  intros Hmissing Hsame. unfold get.
  destruct (decide (k = k')) as [<-|Hne].
  - rewrite lookup_insert_eq, Hmissing; simpl. symmetry. by apply Hsame.
  - by rewrite lookup_insert_ne.
Qed.

Lemma get_conforms_number (params : gmap string value) k d :
  (forall v, params !! k = Some v -> conforms "number" v) ->
  exists z, get params k (VInt d) = VInt z.
Proof.
  intros Hty. unfold get. destruct (params !! k) as [v|]; simpl; [|eauto].
  destruct (Hty v eq_refl) as [[Hstr _]|[_ Hint]]; [discriminate|done].
Qed.

(** C8. Every declared parameter is marked required, yet a known tool
    called without one does not fail for it: "echo" without "message"
    returns the empty string; "add" behaves as if a missing "a" or "b"
    were 0; the image task behaves as if a missing prompt were the empty
    string, a missing width or height 512 and a missing num_images 1. So
    a call whose parameters, where present, are strings and integers as
    declared returns whichever of them are left out. *)
Theorem missing_parameters_take_defaults py_repr params tool_call w :
  (forall td p, In td TOOLS -> In p (td_parameters td) ->
                tp_required p = true) /\
  (params !! "message" = None ->
   handle_tool_call py_repr "echo" params tool_call w
   = (Return (VStr ""), w)) /\
  (params !! "a" = None ->
   handle_tool_call py_repr "add" params tool_call w
   = handle_tool_call py_repr "add" (<[ "a" := VInt 0 ]> params)
       tool_call w) /\
  (params !! "b" = None ->
   handle_tool_call py_repr "add" params tool_call w
   = handle_tool_call py_repr "add" (<[ "b" := VInt 0 ]> params)
       tool_call w) /\
  (params !! "prompt" = None ->
   handle_tool_call py_repr "mcp_create_text_to_image_task" params
     tool_call w
   = handle_tool_call py_repr "mcp_create_text_to_image_task"
       (<[ "prompt" := VStr "" ]> params) tool_call w) /\
  (params !! "width" = None ->
   handle_tool_call py_repr "mcp_create_text_to_image_task" params
     tool_call w
   = handle_tool_call py_repr "mcp_create_text_to_image_task"
       (<[ "width" := VInt 512 ]> params) tool_call w) /\
  (params !! "height" = None ->
   handle_tool_call py_repr "mcp_create_text_to_image_task" params
     tool_call w
   = handle_tool_call py_repr "mcp_create_text_to_image_task"
       (<[ "height" := VInt 512 ]> params) tool_call w) /\
  (params !! "num_images" = None ->
   handle_tool_call py_repr "mcp_create_text_to_image_task" params
     tool_call w
   = handle_tool_call py_repr "mcp_create_text_to_image_task"
       (<[ "num_images" := VInt 1 ]> params) tool_call w) /\
  (forall td,
      In td TOOLS -> well_typed_where_present td params ->
      exists v,
        fst (handle_tool_call py_repr (td_name td) params tool_call w)
        = Return v).
Proof.
  split.
  { intros td p Htd Hp. simpl in Htd.
    destruct Htd as [<-|[<-|[<-|[]]]]; simpl in Hp;
      repeat (destruct Hp as [<-|Hp]; [reflexivity|]); destruct Hp. }
  split.
  { intros Hmissing. unfold handle_tool_call; simpl.
    unfold get. by rewrite Hmissing. }
  repeat (split;
    [intros Hmissing; unfold handle_tool_call; simpl;
     by rewrite !(get_insert_missing _ _ _ _ _ Hmissing)|]).
  intros td Htd Htyped. simpl in Htd.
  destruct Htd as [<-|[<-|[<-|[]]]]; simpl.
  - unfold handle_tool_call; simpl. eauto.
  - destruct (get_conforms_number params "a" 0) as [x Hx].
    { intros v Hv. apply (Htyped _ v (or_introl eq_refl) Hv). }
    destruct (get_conforms_number params "b" 0) as [y Hy].
    { intros v Hv.
      apply (Htyped _ v (or_intror (or_introl eq_refl)) Hv). }
    unfold handle_tool_call, lift; simpl. rewrite Hx, Hy; simpl. eauto.
  - destruct (get_conforms_number params "num_images" 1) as [n Hn].
    { intros v Hv.
      apply (Htyped _ v
               (or_intror (or_intror (or_intror (or_introl eq_refl)))) Hv). }
    rewrite image_task_outcome, Hn. unfold range_of; simpl. eauto.
Qed.

(** The known tools called with no parameter at all. *)
Lemma missing_parameters_take_defaults_witness :
  handle_tool_call (fun _ => EmptyString) "echo" ∅ None module_loaded
  = (Return (VStr ""), module_loaded) /\
  fst (handle_tool_call (fun _ => EmptyString) "add" ∅ None module_loaded)
  = Return (VInt 0) /\
  fst (handle_tool_call (fun _ => EmptyString)
         "mcp_create_text_to_image_task" ∅ None module_loaded)
  = Return (VDict [
      ("images", VList [
         VDict [("url", VStr "https://example.com/images/generated_0.png");
                ("width", VInt 512); ("height", VInt 512)] ]);
      ("prompt", VStr "") ]).
Proof.
  pose proof (missing_parameters_take_defaults (fun _ => EmptyString) ∅
                None module_loaded)
    as (_ & Hecho & Ha & _ & _ & _ & _ & Hnum & _).
  split; [apply Hecho; reflexivity|].
  split; [rewrite Ha by reflexivity | rewrite Hnum by reflexivity];
    reflexivity.
Defined.

(** * Further properties of the handler and of the loop *)

(** ** What the handler reads *)

Lemma get_agree (p q : gmap string value) keys k d :
  agree_on keys p q -> In k keys -> get p k d = get q k d.
Proof. intros Hagree Hk. unfold get. by rewrite (Hagree k Hk). Qed.

(** X1. The handler reads [params] only under the parameter names that
    [TOOLS] declares for the tool: two dictionaries that agree on those
    names give the same outcome and the same events, whatever else they
    hold, and for an undeclared tool the dictionary is not read at all. *)
Theorem handle_tool_call_reads_declared_parameters
    py_repr tool_name params params' tool_call w :
  agree_on (declared_parameters tool_name) params params' ->
  handle_tool_call py_repr tool_name params tool_call w
  = handle_tool_call py_repr tool_name params' tool_call w.
Proof.
  intros Hagree. unfold handle_tool_call.
  destruct (String.eqb_spec tool_name "echo") as [->|_].
  { by rewrite (get_agree params params' _ "message" _ Hagree)
      by (simpl; tauto). }
  destruct (String.eqb_spec tool_name "add") as [->|_].
  { by rewrite (get_agree params params' _ "a" _ Hagree),
      (get_agree params params' _ "b" _ Hagree) by (simpl; tauto). }
  destruct (String.eqb_spec tool_name "mcp_create_text_to_image_task")
    as [->|_]; [|done].
  by rewrite (get_agree params params' _ "prompt" _ Hagree),
    (get_agree params params' _ "width" _ Hagree),
    (get_agree params params' _ "height" _ Hagree),
    (get_agree params params' _ "num_images" _ Hagree) by (simpl; tauto).
Qed.

(** The client's misspelt "negitive_prompt" changes nothing. *)
Lemma handle_tool_call_reads_declared_parameters_witness :
  handle_tool_call (fun _ => EmptyString) (tc_name client_call)
    (tc_parameters client_call) (Some client_call) module_loaded
  = handle_tool_call (fun _ => EmptyString) (tc_name client_call)
      (delete "negitive_prompt" (tc_parameters client_call))
      (Some client_call) module_loaded.
Proof.
  apply handle_tool_call_reads_declared_parameters.
  intros k Hk. simpl in Hk.
  destruct Hk as [<-|[<-|[<-|[<-|[]]]]]; reflexivity.
Defined.

(** ** When the handler is silent *)

(** X2. Only the image task on a tool call that provides
    [send_notification] notifies or sleeps: in every other case (echo, add,
    an unknown tool, the image task without such a tool call) the handler
    makes no library call at all, whether it returns or raises. *)
Theorem handle_tool_call_silent py_repr tool_name params tool_call w :
  notifies tool_name tool_call = false ->
  snd (handle_tool_call py_repr tool_name params tool_call w) = w.
Proof.
  unfold notifies, handle_tool_call. intros Hsilent.
  destruct (String.eqb tool_name "echo"); [done|].
  destruct (String.eqb tool_name "add"); [done|].
  destruct (String.eqb tool_name "mcp_create_text_to_image_task"); [|done].
  simpl in Hsilent.
  destruct tool_call as [tc|]; [rewrite Hsilent|];
    unfold bind, lift, ret; simpl; by destruct (range_of _).
Qed.

(** An ill-typed add, which raises, has made no call before. *)
Lemma handle_tool_call_silent_witness :
  snd (handle_tool_call (fun _ => EmptyString) "add"
         {[ "a" := VStr "x" ]} (Some sunset_call) module_loaded)
  = module_loaded.
Proof. apply handle_tool_call_silent. reflexivity. Defined.

(** ** The image count *)


Lemma string_length_app (x y : string) :
  String.length (x +:+ y) = (String.length x + String.length y)%nat.
Proof. induction x as [|c x IH]; simpl; [done|by rewrite IH]. Qed.

Lemma string_app_inj_r (s t u : string) : s +:+ u = t +:+ u -> s = t.
Proof.
  revert t. induction s as [|a s IH]; intros [|b t] Heq.
  - done.
  - apply (f_equal String.length) in Heq.
    rewrite !string_length_app in Heq. simpl in Heq. lia.
  - apply (f_equal String.length) in Heq.
    rewrite !string_length_app in Heq. simpl in Heq. lia.
  - simpl in Heq. injection Heq as -> Heq. f_equal. by apply IH.
Qed.

Lemma image_url_inj : Inj (=) (=) image_url.
Proof.
  intros i j Heq. unfold image_url in Heq.
  apply (inj (String.app _)) in Heq.
  apply string_app_inj_r in Heq.
  by apply (inj pretty).
Qed.

Lemma NoDup_range start stop : NoDup (range start stop).
Proof.
  unfold range. apply NoDup_fmap_2; [|apply NoDup_seq].
  intros k1 k2 Heq. lia.
Qed.





(** X5. Every result the image task returns lists its images under
    pairwise distinct urls, each entry carrying the width and height the
    call was given. *)
Theorem image_task_urls_distinct py_repr params tool_call w result :
  fst (handle_tool_call py_repr "mcp_create_text_to_image_task" params
         tool_call w) = Return result ->
  exists urls,
    NoDup urls /\
    result
    = VDict [("images",
              VList (map (fun url =>
                            image_entry url
                              (get params "width" (VInt 512))
                              (get params "height" (VInt 512))) urls));
             ("prompt", get params "prompt" (VStr ""))].
Proof.
  rewrite image_task_outcome. unfold range_of.
  destruct (as_int (get params "num_images" (VInt 1))) as [z|];
    [|discriminate].
  intros [= <-].
  exists (map image_url (range 0 z)). split.
  - apply NoDup_fmap_2; [apply image_url_inj | apply NoDup_range].
  - by rewrite map_map.
Qed.

(** The urls of a result with two images. *)
Lemma image_task_urls_distinct_witness :
  exists urls,
    NoDup urls /\
    fst (handle_tool_call (fun _ => EmptyString)
           "mcp_create_text_to_image_task" two_images_params
           None module_loaded)
    = Return (VDict [("images",
                      VList (map (fun url =>
                                    image_entry url
                                      (get two_images_params "width" (VInt 512))
                                      (get two_images_params "height" (VInt 512)))
                               urls));
                     ("prompt", get two_images_params "prompt" (VStr ""))]).
Proof.
  destruct (image_task_urls_distinct (fun _ => EmptyString) two_images_params
              None module_loaded _ eq_refl)
    as (urls & Hdistinct & Hresult).
  exists urls. split; [exact Hdistinct|].
  rewrite <- Hresult. reflexivity.
Defined.

(** ** What the add tool accepts *)

Lemma py_add_by_kinds a b :
  ((exists msg, py_add a b = Raise (TypeError msg))
   <-> (kind_of a <> kind_of b \/ kind_of a = KOther)) /\
  (forall v, py_add a b = Return v ->
             kind_of v = kind_of a /\ kind_of v = kind_of b) /\
  (forall msg, py_add a b = Raise (OverflowError msg) ->
               (exists f, a = VFloat f) /\ is_Some (as_int b) \/
               is_Some (as_int a) /\ (exists g, b = VFloat g)).
Proof.
  split; [split|split].
  - intros [msg Hmsg].
    destruct a, b; simpl in *; try (left; discriminate);
      try (right; reflexivity);
      match type of Hmsg with
      | context [int_to_float ?z] =>
          destruct (int_to_float_cases z) as [[_ Hz] | [_ Hz]];
          rewrite Hz in Hmsg; discriminate
      | _ => discriminate
      end.
  - intros Hkinds.
    destruct a, b; simpl in *;
      try (eexists; reflexivity);
      exfalso; destruct Hkinds as [Hne | Hother];
      try discriminate; by apply Hne.
  - intros v Hv.
    destruct a, b; simpl in *; try discriminate;
      try (injection Hv as <-; done);
      match type of Hv with
      | context [int_to_float ?z] =>
          destruct (int_to_float_cases z) as [[_ Hz] | [_ Hz]];
          rewrite Hz in Hv; [injection Hv as <-; done | discriminate]
      end.
  - intros msg Hmsg.
    destruct a, b; simpl in *; try discriminate; eauto.
Qed.

(** X6. The add tool takes more than numbers. With a missing operand
    read as 0, it returns exactly when both operands are numbers, both
    strings or both lists (a sum, or a concatenation, of that same kind),
    except that an int too large for a float, met with a float, ends in
    OverflowError; every other pairing ends in TypeError. *)
Theorem add_outcome_by_operand_kinds py_repr params tool_call w a b :
  get params "a" (VInt 0) = a ->
  get params "b" (VInt 0) = b ->
  ((exists msg,
       fst (handle_tool_call py_repr "add" params tool_call w)
       = Raise (TypeError msg))
   <-> (kind_of a <> kind_of b \/ kind_of a = KOther)) /\
  (forall v,
      fst (handle_tool_call py_repr "add" params tool_call w) = Return v ->
      kind_of v = kind_of a /\ kind_of v = kind_of b) /\
  (forall msg,
      fst (handle_tool_call py_repr "add" params tool_call w)
      = Raise (OverflowError msg) ->
      (exists f, a = VFloat f) /\ is_Some (as_int b) \/
      is_Some (as_int a) /\ (exists g, b = VFloat g)) /\
  (forall s t,
      a = VStr s -> b = VStr t ->
      fst (handle_tool_call py_repr "add" params tool_call w)
      = Return (VStr (s +:+ t))) /\
  (forall l k,
      a = VList l -> b = VList k ->
      fst (handle_tool_call py_repr "add" params tool_call w)
      = Return (VList (l ++ k))).
Proof.
  intros Ha Hb.
  assert (Hrun : fst (handle_tool_call py_repr "add" params tool_call w)
                 = py_add a b).
  { unfold handle_tool_call, lift; simpl. by rewrite Ha, Hb. }
  rewrite Hrun.
  destruct (py_add_by_kinds a b) as (Htype & Hreturn & Hoverflow).
  repeat split; try done; try apply Htype.
  - by apply Hreturn.
  - by apply Hreturn.
  - by intros s t -> ->.
  - by intros l k -> ->.
Qed.

(** Strings are concatenated in the order "a", "b"; a lone string meets
    the default 0 and is refused. *)
Lemma add_outcome_by_operand_kinds_witness :
  fst (handle_tool_call (fun _ => EmptyString) "add"
         (<[ "a" := VStr "ab" ]> {[ "b" := VStr "cd" ]}) None module_loaded)
  = Return (VStr "abcd") /\
  exists msg,
    fst (handle_tool_call (fun _ => EmptyString) "add"
           {[ "a" := VStr "ab" ]} None module_loaded)
    = Raise (TypeError msg).
Proof.
  split.
  - destruct (add_outcome_by_operand_kinds (fun _ => EmptyString)
                (<[ "a" := VStr "ab" ]> {[ "b" := VStr "cd" ]}) None
                module_loaded (VStr "ab") (VStr "cd"))
      as (_ & _ & _ & Hstr & _); [reflexivity..|].
    apply (Hstr "ab" "cd"); reflexivity.
  - destruct (add_outcome_by_operand_kinds (fun _ => EmptyString)
                {[ "a" := VStr "ab" ]} None module_loaded
                (VStr "ab") (VInt 0))
      as (Htype & _); [reflexivity..|].
    apply Htype. left. discriminate.
Defined.

(** ** The shape of a session *)

Lemma handle_one_block py_repr tool_call :
  exists o,
    forall w,
      fst (handle_tool_call py_repr (tc_name tool_call)
             (tc_parameters tool_call) (Some tool_call) w) = o /\
      handle_one py_repr tool_call w
      = (Return tt,
         log w (call_block
                  (py_str py_repr
                     (get (tc_parameters tool_call) "prompt" (VStr "")))
                  tool_call o)).
Proof.
  unfold call_block.
  destruct (notifies (tc_name tool_call) (Some tool_call)) eqn:Hnotifies.
  - unfold notifies in Hnotifies.
    apply andb_true_iff in Hnotifies as [Hname Hhas].
    apply String.eqb_eq in Hname.
    destruct (image_task_run py_repr (tc_parameters tool_call) tool_call Hhas)
      as [o Hrun].
    exists o. intros w. rewrite Hname, Hrun. split; [done|].
    unfold handle_one, try_except, bind. rewrite Hname, Hrun.
    destruct o; simpl; unfold emit; by rewrite log_log.
  - destruct (handle_tool_call_framed py_repr (tc_name tool_call)
                (tc_parameters tool_call) (Some tool_call))
      as (o & es & _ & Hrun).
    exists o. intros w.
    pose proof (handle_tool_call_silent py_repr (tc_name tool_call)
                  (tc_parameters tool_call) (Some tool_call) w Hnotifies)
      as Hsilent.
    rewrite Hrun in *; simpl in *. split; [done|].
    unfold handle_one, try_except, bind. rewrite Hrun, Hsilent.
    by destruct o.
Qed.

Lemma for_each_handle_one_blocks py_repr tool_calls w0 w :
  for_each tool_calls (handle_one py_repr) w
  = (Return tt,
     log w (concat (map (fun tc =>
              call_block
                (py_str py_repr (get (tc_parameters tc) "prompt" (VStr "")))
                tc
                (fst (handle_tool_call py_repr (tc_name tc)
                        (tc_parameters tc) (Some tc) w0)))
              tool_calls))).
Proof.
  revert w. induction tool_calls as [|tc rest IH]; intros w; simpl.
  - unfold ret. by rewrite log_nil.
  - destruct (handle_one_block py_repr tc) as [o Hone].
    unfold bind. destruct (Hone w) as [_ ->].
    destruct (Hone w0) as [-> _].
    by rewrite IH, log_log.
Qed.







(** X9. A session acts on the tool calls it was given and on no other:
    every notification and every reply in its trace is made on one of
    them, and a notification only on an image-task call that provides
    [send_notification]. *)
Theorem handle_session_targets py_repr tool_calls w :
  exists es,
    handle_session py_repr tool_calls w = (Return tt, log w es) /\
    Forall (fun e =>
              match event_call e with
              | Some tc => In tc tool_calls
              | None => True
              end) es /\
    Forall (fun e =>
              match e with
              | SendNotification tc _ =>
                  tc_name tc = "mcp_create_text_to_image_task" /\
                  tc_has_send_notification tc = true
              | _ => True
              end) es.
Proof.
  unfold handle_session, bind, read_TOOLS, emit.
  rewrite (for_each_handle_one_blocks py_repr tool_calls w), !log_log.
  eexists. split; [reflexivity|].
  split; (cbn [app]; constructor; [exact I|]; constructor; [exact I|]).
  - induction tool_calls as [|tc rest IH]; simpl; [constructor|].
    apply Forall_app_2.
    + unfold call_block. apply Forall_app_2.
      * destruct (notifies _ _); [|constructor].
        unfold image_task_events.
        repeat (constructor; [simpl; tauto|]). constructor.
      * constructor; [|constructor]. destruct (fst _); simpl; tauto.
    + eapply Forall_impl; [exact IH|].
      intros e; simpl. destruct (event_call e); tauto.
  - induction tool_calls as [|tc rest IH]; simpl; [constructor|].
    apply Forall_app_2; [|exact IH].
    unfold call_block. apply Forall_app_2.
    + destruct (notifies (tc_name tc) (Some tc)) eqn:Hnotifies;
        [|constructor].
      unfold notifies in Hnotifies.
      apply andb_true_iff in Hnotifies as [Hname%String.eqb_eq Hhas].
      unfold image_task_events.
      repeat (constructor; [done|]). constructor.
    + constructor; [|constructor]. by destruct (fst _).
Qed.
